(** * Parse.Cloud: the request/response contract of [src/Cloud.js]

    A shallow embedding of the four public entry points of the module
    ([run], [getJobsData], [startJob], [getJobStatus]) and of its
    [DefaultController], followed by the properties of the contract layer.

    - JavaScript values are an inductive type; objects are finite maps from
      property names to values.
    - A call either completes normally or throws ([Completion]); the transport
      requests issued so far are threaded through as explicit state ([M]).
    - A promise is represented by its eventual settlement ([Promise]).
    - The imported collaborators whose code is not part of [Cloud.js]
      ([encode], [decode], [ParseError.INVALID_JSON], [ParseQuery]) are the
      fields of the interface [Collaborators]; the process-wide registry
      [CoreManager] is a record that the entry points read at call time. *)

From Stdlib Require Import ZArith String List.
From Stdlib Require Import Floats.SpecFloat.
From stdpp Require Import base tactics option list gmap strings.

Open Scope string_scope.

(* ===================================================================== *)
(** * JavaScript values and the primitive operations [Cloud.js] uses      *)
(* ===================================================================== *)

Module JS.

(** The values that cross this layer: [undefined] and what a parsed JSON
    document contains.  Numbers are IEEE 754 doubles, arrays are dense,
    an object is the finite map of its own properties. *)
#[local] Unset Elimination Schemes.
Inductive value : Type :=
  | VUndefined
  | VNull
  | VBool (b : bool)
  | VNum (x : spec_float)
  | VStr (s : string)
  | VArr (items : list value)
  | VObj (fields : gmap string value).
#[local] Set Elimination Schemes.

(** What a [throw] carries, and what a promise is rejected with. *)
Inductive exn : Type :=
  | TypeError (message : string)
  | ParseError (code : Z) (message : string)
  | Reason (v : value).

(** Outcome of evaluating a call: a value, or an exception thrown
    synchronously to the caller. *)
Inductive Completion (A : Type) : Type :=
  | Normal (a : A)
  | Throw (e : exn).
Arguments Normal {A} a.
Arguments Throw {A} e.

#[global] Instance Completion_ret : MRet Completion := @Normal.
#[global] Instance Completion_bind : MBind Completion :=
  fun A B f c => match c with Normal a => f a | Throw e => Throw e end.
#[global] Instance Completion_fmap : FMap Completion :=
  fun A B f c => match c with Normal a => Normal (f a) | Throw e => Throw e end.

(** [typeof v] *)
Definition typeof (v : value) : string :=
  match v with
  | VUndefined => "undefined"
  | VNull => "object"
  | VBool _ => "boolean"
  | VNum _ => "number"
  | VStr _ => "string"
  | VArr _ | VObj _ => "object"
  end.

(** The coercion applied by [if (v)], [v || w] and [v && w]. *)
Definition ToBoolean (v : value) : bool :=
  match v with
  | VUndefined | VNull => false
  | VBool b => b
  | VNum (S754_zero _ | S754_nan) => false
  | VNum _ => true
  | VStr s => negb (bool_decide (s = ""))
  | VArr _ | VObj _ => true
  end.

(** [a || b] on values. *)
Definition or_else (a b : value) : value := if ToBoolean a then a else b.

(** [o.k] for the property names this module reads ([useMasterKey],
    [sessionToken], [context], [result]) on a receiver that is neither
    [null] nor [undefined].  None of these names is an array index,
    [length], or a member of a built-in prototype, so the read finds an own
    property of an object and [undefined] everywhere else. *)
Definition prop (o : value) (k : string) : value :=
  match o with
  | VObj fields => default VUndefined (fields !! k)
  | _ => VUndefined
  end.

(** [Object.keys(v).length]; [Object.keys] throws on [null] and
    [undefined]. *)
Definition Object_keys_length (v : value) : Completion nat :=
  match v with
  | VUndefined | VNull =>
      Throw (TypeError "Cannot convert undefined or null to object")
  | VBool _ | VNum _ => Normal 0
  | VStr s => Normal (String.length s)
  | VArr items => Normal (length items)
  | VObj fields => Normal (size fields)
  end.

(** [recv.hasOwnProperty('result')], where [recv] is the source text of the
    receiver.  The method is looked up on the receiver like any other
    property: an own property called [hasOwnProperty] shadows the one of
    [Object.prototype], and no value of [value] is callable.  Arrays and
    wrapped primitives own only indices and [length]. *)
Definition hasOwnProperty_result (recv : string) (v : value) : Completion bool :=
  match v with
  | VUndefined =>
      Throw (TypeError "Cannot read properties of undefined (reading 'hasOwnProperty')")
  | VNull =>
      Throw (TypeError "Cannot read properties of null (reading 'hasOwnProperty')")
  | VObj fields =>
      match fields !! "hasOwnProperty" with
      | Some _ => Throw (TypeError (recv ++ ".hasOwnProperty is not a function"))
      | None => Normal (bool_decide (is_Some (fields !! "result")))
      end
  | VBool _ | VNum _ | VStr _ | VArr _ => Normal false
  end.

End JS.

Import JS.

(* ===================================================================== *)
(** * Promises, transport requests and the effect of a call               *)
(* ===================================================================== *)

(** A promise, identified with the way it eventually settles. *)
Inductive Promise : Type :=
  | Fulfilled (v : value)
  | Rejected (e : exn)
  | Pending.

(** [Promise.resolve(v)]: no value of [value] is a thenable. *)
Definition Promise_resolve (v : value) : Promise := Fulfilled v.

(** [p.then(onFulfilled)]: the callback runs on the fulfilment value; the
    promise it returns is adopted, an exception it throws becomes the
    rejection reason; a rejection of [p] passes through. *)
Definition then_ (p : Promise) (onFulfilled : value -> Completion Promise) : Promise :=
  match p with
  | Fulfilled v =>
      match onFulfilled v with
      | Normal q => q
      | Throw e => Rejected e
      end
  | Rejected e => Rejected e
  | Pending => Pending
  end.

Inductive Method : Type := GET | POST.

(** The four arguments of one call of [RESTController.request]. *)
Record Request : Type := mkRequest {
  method : Method;
  path : string;
  body : value;
  options : value
}.

(** A computation of this module: it observes and extends the list of
    transport requests issued so far, and returns or throws. *)
Definition M (A : Type) : Type := list Request -> Completion A * list Request.

#[global] Instance M_ret : MRet M := fun A a issued => (Normal a, issued).
#[global] Instance M_bind : MBind M := fun A B f m issued =>
  match m issued with
  | (Normal a, issued') => f a issued'
  | (Throw e, issued') => (Throw e, issued')
  end.

Definition throw {A : Type} (e : exn) : M A := fun issued => (Throw e, issued).

(** A call that can throw but issues no request. *)
Definition lift {A : Type} (c : Completion A) : M A := fun issued => (c, issued).

(** The transport collaborator: how the server side answers a request. *)
Definition RESTController : Type := Request -> Promise.

(** [RESTController.request(method, path, body, options)] *)
Definition request (rest : RESTController) (m : Method) (p : string)
    (b o : value) : M Promise :=
  fun issued => let r := mkRequest m p b o in (Normal (rest r), (issued ++ [r])%list).

(* ===================================================================== *)
(** * Imported collaborators and the controller registry                  *)
(* ===================================================================== *)

(** The imports of [Cloud.js] other than [CoreManager].  Their code is not
    part of this module, which relies only on the signatures below; every
    theorem holds for all collaborators of these signatures.
    - [encode]: the generic encoder [encode(value, disallowUnsaved)]; it
      returns a transport-safe value or throws.
    - [decode]: the generic decoder [decode(transportValue)]; its result is
      taken to be a plain value, with own properties only.
    - [INVALID_JSON]: the error code [ParseError.INVALID_JSON].
    - [ParseQuery_get]: [new ParseQuery(className).get(id, options)], the
      query collaborator. *)
Class Collaborators : Type := {
  encode : value -> bool -> Completion value;
  decode : value -> value;
  INVALID_JSON : Z;
  ParseQuery_get : string -> value -> value -> M Promise
}.

(** A cloud controller: an object with the three methods the entry points
    call.  A method reads the transport from the registry when it runs, so
    it receives the registered [RESTController]. *)
Record CloudController : Type := mkCloudController {
  ctl_run : RESTController -> string -> value -> value -> M Promise;
  ctl_getJobsData : RESTController -> value -> M Promise;
  ctl_startJob : RESTController -> string -> value -> value -> M Promise
}.

(** The process-wide registry, restricted to the two roles used here. *)
Record CoreManager : Type := mkCoreManager {
  getRESTController : RESTController;
  getCloudController : CloudController
}.

(** [CoreManager.setCloudController(controller)]: replaces the registered
    controller. *)
Definition setCloudController (c : CloudController) (cm : CoreManager) : CoreManager :=
  {| getRESTController := getRESTController cm; getCloudController := c |}.

(* ===================================================================== *)
(** * [Cloud.js]                                                          *)
(* ===================================================================== *)

Section Cloud.
Context `{Collaborators}.

(** Lines 43-52 of [run]: the record built from the caller's options. *)
Definition requestOptions (options : value) : gmap string value :=
  let requestOptions : gmap string value := ∅ in
  let requestOptions :=
    if ToBoolean (prop options "useMasterKey")
    then <["useMasterKey" := prop options "useMasterKey"]> requestOptions
    else requestOptions in
  let requestOptions :=
    if ToBoolean (prop options "sessionToken")
    then <["sessionToken" := prop options "sessionToken"]> requestOptions
    else requestOptions in
  let requestOptions :=
    if ToBoolean (prop options "context")
       && bool_decide (typeof (prop options "context") = "object")
    then <["context" := prop options "context"]> requestOptions
    else requestOptions in
  requestOptions.

(** [Parse.Cloud.run(name, data, options)].  The test
    [typeof name !== 'string'] is the match on [VStr] (lemma [typeof_string]),
    [name.length === 0] the test on the length of the string. *)
Definition run (cm : CoreManager) (name data options : value) : M Promise :=
  let options := or_else options (VObj ∅) in
  match name with
  | VStr s =>
      if bool_decide (String.length s = 0)
      then throw (TypeError "Cloud function name must be a string.")
      else ctl_run (getCloudController cm) (getRESTController cm)
             s data (VObj (requestOptions options))
  | _ => throw (TypeError "Cloud function name must be a string.")
  end.

(** [Parse.Cloud.getJobsData()] *)
Definition getJobsData (cm : CoreManager) : M Promise :=
  let requestOptions := VObj {[ "useMasterKey" := VBool true ]} in
  ctl_getJobsData (getCloudController cm) (getRESTController cm) requestOptions.

(** [Parse.Cloud.startJob(name, data)] *)
Definition startJob (cm : CoreManager) (name data : value) : M Promise :=
  match name with
  | VStr s =>
      if bool_decide (String.length s = 0)
      then throw (TypeError "Cloud job name must be a string.")
      else
        let requestOptions := VObj {[ "useMasterKey" := VBool true ]} in
        ctl_startJob (getCloudController cm) (getRESTController cm)
          s data requestOptions
  | _ => throw (TypeError "Cloud job name must be a string.")
  end.

(** [Parse.Cloud.getJobStatus(jobStatusId)]: the body does not mention
    [CoreManager]. *)
Definition getJobStatus (cm : CoreManager) (jobStatusId : value) : M Promise :=
  ParseQuery_get "_JobStatus" jobStatusId (VObj {[ "useMasterKey" := VBool true ]}).

(** The callback of [request.then] in [DefaultController.run]
    (lines 113-122). *)
Definition run_then (res : value) : Completion Promise :=
  invalid ←
    (if bool_decide (typeof res = "object") then
       n ← Object_keys_length res;
       if bool_decide (0 < n)
       then negb <$> hasOwnProperty_result "res" res
       else Normal false
     else Normal false);
  if (invalid : bool) then
    Throw (ParseError INVALID_JSON "The server returned an invalid response.")
  else
    let decoded := decode res in
    has ←
      (if ToBoolean decoded
       then hasOwnProperty_result "decoded" decoded
       else Normal false);
    if (has : bool)
    then Normal (Promise_resolve (prop decoded "result"))
    else Normal (Promise_resolve VUndefined).

(** [DefaultController.run(name, data, options)] *)
Definition DefaultController_run (rest : RESTController) (name : string)
    (data options : value) : M Promise :=
  payload ← lift (encode data true);
  request ← request rest POST ("functions/" ++ name) payload options;
  mret (then_ request run_then).

(** [DefaultController.getJobsData(options)] *)
Definition DefaultController_getJobsData (rest : RESTController)
    (options : value) : M Promise :=
  request rest GET "cloud_code/jobs/data" VNull options.

(** [DefaultController.startJob(name, data, options)] *)
Definition DefaultController_startJob (rest : RESTController) (name : string)
    (data options : value) : M Promise :=
  payload ← lift (encode data true);
  request rest POST ("jobs/" ++ name) payload options.

Definition DefaultController : CloudController :=
  {| ctl_run := DefaultController_run;
     ctl_getJobsData := DefaultController_getJobsData;
     ctl_startJob := DefaultController_startJob |}.

(** The last line of the module, [CoreManager.setCloudController(
    DefaultController)], run when the module is loaded. *)
Definition module_load (cm : CoreManager) : CoreManager :=
  setCloudController DefaultController cm.

End Cloud.

(* ===================================================================== *)
(** * Concrete collaborators, for running the embedding on examples       *)
(* ===================================================================== *)

(** A codec that leaves transport-safe values as they are, the code
    [ParseError.INVALID_JSON] of the SDK, and a query collaborator that
    finds no record. *)
Definition sample_collaborators : Collaborators :=
  {| encode := fun v _ => Normal v;
     decode := fun v => v;
     INVALID_JSON := 107;
     ParseQuery_get := fun _ _ _ =>
       mret (Rejected (ParseError 101 "Object not found.")) |}.

(** A transport that echoes the request body as [{result: body}]. *)
Definition echo_transport : RESTController :=
  fun r => Fulfilled (VObj {[ "result" := body r ]}).

(** A transport that always answers with the given reply. *)
Definition const_transport (reply : value) : RESTController :=
  fun _ => Fulfilled reply.

(** A transport that fails every request with the given reason. *)
Definition rejecting_transport (e : exn) : RESTController :=
  fun _ => Rejected e.

(** Collaborators whose encoder refuses the payload [undefined] and leaves
    every other value as it is. *)
Definition strict_collaborators : Collaborators :=
  {| encode := fun v _ =>
       match v with
       | VUndefined => Throw (Reason (VStr "Cannot create a pointer to an unsaved Object."))
       | _ => Normal v
       end;
     decode := fun v => v;
     INVALID_JSON := 107;
     ParseQuery_get := fun _ _ _ =>
       mret (Rejected (ParseError 101 "Object not found.")) |}.

(** A controller whose three methods settle with [p] and touch no transport. *)
Definition stub_controller (p : Promise) : CloudController :=
  {| ctl_run := fun _ _ _ _ => mret p;
     ctl_getJobsData := fun _ _ => mret p;
     ctl_startJob := fun _ _ _ _ => mret p |}.

Definition sample_registry (rest : RESTController) : CoreManager :=
  {| getRESTController := rest; getCloudController := stub_controller Pending |}.

(** An operation depends on the registered cloud controller when replacing
    the controller can change what the operation does. *)
Definition depends_on_cloud_controller (op : CoreManager -> M Promise) : Prop :=
  exists cm c issued, op (setCloudController c cm) issued <> op cm issued.

(** A reply object that hides [Object.prototype.hasOwnProperty] behind an own
    property of that name. *)
Definition shadows_hasOwnProperty (v : value) : Prop :=
  match v with
  | VObj fields => is_Some (fields !! "hasOwnProperty")
  | _ => False
  end.

(** A reply that is an object (a mapping or an array) with at least one own
    key and no own property [result]: the malformed envelope. *)
Definition lacks_result (res : value) : Prop :=
  match res with
  | VObj fields => 0 < size fields /\ fields !! "result" = None
  | VArr items => 0 < length items
  | _ => False
  end.

(** The own property [result] of a value, when it has one. *)
Definition own_result (v : value) : option value :=
  match v with
  | VObj fields => fields !! "result"
  | _ => None
  end.

(** The request [DefaultController.run] sends for the name [s], the encoded
    payload [E] and the options the caller gave to [run]. *)
Definition run_request (s : string) (E opts : value) : Request :=
  mkRequest POST ("functions/" ++ s) E
    (VObj (requestOptions (or_else opts (VObj ∅)))).

(** A keyed mapping, as opposed to an ordered sequence: an object that is
    not an array. *)
Definition keyed_mapping (v : value) : Prop :=
  match v with
  | VObj _ => True
  | _ => False
  end.

(** Collaborators whose query collaborator answers with the lookup it was
    asked to make: the collection, the identifier and the options. *)
Definition echo_query_collaborators : Collaborators :=
  {| encode := fun v _ => Normal v;
     decode := fun v => v;
     INVALID_JSON := 107;
     ParseQuery_get := fun className id o =>
       mret (Fulfilled (VObj {[ "className" := VStr className;
                                "objectId" := id;
                                "options" := o ]})) |}.

(** The three option names [run] forwards. *)
Definition forwarded_keys : list string := ["useMasterKey"; "sessionToken"; "context"].

(* ===================================================================== *)
(** * Basic facts about the value operations                              *)
(* ===================================================================== *)

Lemma typeof_string (v : value) : typeof v = "string" <-> exists s, v = VStr s.
Proof.
  split.
  - destruct v; simpl; try discriminate. eauto.
  - intros [s ->]. reflexivity.
Qed.

Lemma length_zero_empty (s : string) : String.length s = 0 <-> s = "".
Proof. destruct s; simpl; split; congruence. Qed.

(** [v && typeof v === 'object'] holds exactly of arrays and objects. *)
Lemma truthy_object (v : value) :
  ToBoolean v && bool_decide (typeof v = "object") = true
  <-> typeof v = "object" /\ v <> VNull.
Proof.
  rewrite andb_true_iff, bool_decide_eq_true.
  destruct v as [| |b|x|s|items|fields]; simpl; split; intros [H1 H2];
    try discriminate; try congruence; split; congruence.
Qed.

(* ===================================================================== *)
(** * The options record built by [run]                                   *)
(* ===================================================================== *)

Section RequestOptions.

(** Each forwarded key is decided on its own: [useMasterKey] and
    [sessionToken] by truthiness, [context] by truthiness and [typeof]. *)
Lemma requestOptions_lookup (o : value) (k : string) :
  requestOptions o !! k =
    if decide (k = "useMasterKey") then
      if ToBoolean (prop o k) then Some (prop o k) else None
    else if decide (k = "sessionToken") then
      if ToBoolean (prop o k) then Some (prop o k) else None
    else if decide (k = "context") then
      if ToBoolean (prop o k) && bool_decide (typeof (prop o k) = "object")
      then Some (prop o k) else None
    else None.
Proof.
  unfold requestOptions.
  repeat case_decide; subst; try discriminate;
    destruct (ToBoolean (prop o "useMasterKey"));
    destruct (ToBoolean (prop o "sessionToken"));
    destruct (ToBoolean (prop o "context")
              && bool_decide (typeof (prop o "context") = "object"));
    simplify_map_eq; reflexivity.
Qed.

Lemma requestOptions_delete_falsy (fields : gmap string value) (k : string) :
  ToBoolean (prop (VObj fields) k) = false ->
  requestOptions (VObj (delete k fields)) = requestOptions (VObj fields).
Proof.
  intros Hfalsy. apply map_eq. intros j.
  rewrite !requestOptions_lookup. simpl in *.
  destruct (decide (j = k)) as [->|Hjk].
  - rewrite lookup_delete_eq. simpl. rewrite Hfalsy. simpl.
    repeat case_decide; reflexivity.
  - rewrite lookup_delete_ne by congruence. reflexivity.
Qed.

End RequestOptions.

(* ===================================================================== *)
(** * The public entry points                                             *)
(* ===================================================================== *)

Section EntryPoints.

Lemma run_valid_name (cm : CoreManager) (s : string) (data opts : value) :
  s <> "" ->
  run cm (VStr s) data opts =
    ctl_run (getCloudController cm) (getRESTController cm) s data
      (VObj (requestOptions (or_else opts (VObj ∅)))).
Proof.
  intros Hs. unfold run.
  rewrite bool_decide_eq_false_2; [reflexivity|].
  by rewrite length_zero_empty.
Qed.

Lemma startJob_valid_name (cm : CoreManager) (s : string) (data : value) :
  s <> "" ->
  startJob cm (VStr s) data =
    ctl_startJob (getCloudController cm) (getRESTController cm) s data
      (VObj {[ "useMasterKey" := VBool true ]}).
Proof.
  intros Hs. unfold startJob.
  rewrite bool_decide_eq_false_2; [reflexivity|].
  by rewrite length_zero_empty.
Qed.

(** C6 (amended): whatever options record the caller passes to [run], the
    record handed to the controller holds only keys among [useMasterKey],
    [sessionToken] and [context], each with the caller's (truthy) value;
    every other caller option is dropped, a key the caller left unset is
    absent, and [context] is present exactly when the caller's value is
    truthy with [typeof] ['object'], that is, a keyed mapping or an array. *)
Theorem run_forwards_only_recognised_options
    (cm : CoreManager) (s : string) (data opts : value) :
  s <> "" ->
  let caller := or_else opts (VObj ∅) in
  let out := requestOptions caller in
  run cm (VStr s) data opts =
    ctl_run (getCloudController cm) (getRESTController cm) s data (VObj out)
  /\ (forall k v, out !! k = Some v ->
        k ∈ forwarded_keys /\ v = prop caller k /\ ToBoolean v = true)
  /\ (forall k, k ∉ forwarded_keys -> out !! k = None)
  /\ (forall k, prop caller k = VUndefined -> out !! k = None)
  /\ (is_Some (out !! "context") <->
        typeof (prop caller "context") = "object"
        /\ prop caller "context" <> VNull)
  /\ (is_Some (out !! "context") <->
        keyed_mapping (prop caller "context")
        \/ exists items, prop caller "context" = VArr items).
Proof.
  intros Hs caller out. split; [by apply run_valid_name|].
  assert (Hkeys : forall k v, out !! k = Some v ->
            k ∈ forwarded_keys /\ v = prop caller k /\ ToBoolean v = true).
  { intros k v. unfold out. rewrite requestOptions_lookup.
    unfold forwarded_keys.
    repeat case_decide; subst; try done;
      (destruct (ToBoolean (prop caller _)) eqn:Ht; [|done]);
      try (destruct (bool_decide _); [|done]); cbn [andb];
      intros [= <-]; (split_and!; [set_solver|done|done]). }
  split_and!.
  - exact Hkeys.
  - intros k Hk. destruct (out !! k) as [v|] eqn:Hv; [|done].
    by destruct (Hkeys k v Hv).
  - intros k Hk. destruct (out !! k) as [v|] eqn:Hv; [|done].
    destruct (Hkeys k v Hv) as (_ & -> & Ht). rewrite Hk in Ht. discriminate.
  - unfold out. rewrite requestOptions_lookup. simpl.
    rewrite <- truthy_object.
    destruct (ToBoolean (prop caller "context")
              && bool_decide (typeof (prop caller "context") = "object"));
      split; intros Hx; done.
  - unfold out. rewrite requestOptions_lookup. simpl.
    destruct (prop caller "context") as [| |b|x|s'|items|fields]; simpl;
      try (destruct b); try (destruct x);
      try (destruct (bool_decide (s' = "")));
      split; try (intros [? ?]; discriminate);
      try (intros [[]|[? ?]]; discriminate); eauto.
Qed.

(** C10: [run] forwards [useMasterKey] and [sessionToken] by truthiness.  An
    options record with [useMasterKey: false], or with [sessionToken: ''],
    yields a record without that key, and the whole call behaves as it does
    on the same options with the key removed. *)
Theorem run_drops_falsy_credentials
    (cm : CoreManager) (name data : value) (fields : gmap string value)
    (k : string) :
  (k = "useMasterKey" /\ fields !! k = Some (VBool false))
  \/ (k = "sessionToken" /\ fields !! k = Some (VStr "")) ->
  requestOptions (or_else (VObj fields) (VObj ∅)) !! k = None
  /\ run cm name data (VObj fields) = run cm name data (VObj (delete k fields)).
Proof.
  intros Hk.
  assert (Hfalsy : ToBoolean (prop (VObj fields) k) = false).
  { destruct Hk as [[_ Hv]|[_ Hv]]; simpl; by rewrite Hv. }
  split.
  - change (or_else (VObj fields) (VObj ∅)) with (VObj fields).
    rewrite requestOptions_lookup, Hfalsy.
    destruct Hk as [[-> _]|[-> _]]; reflexivity.
  - unfold run. simpl or_else.
    change (or_else (VObj fields) (VObj ∅)) with (VObj fields).
    change (or_else (VObj (delete k fields)) (VObj ∅)) with (VObj (delete k fields)).
    by rewrite requestOptions_delete_falsy.
Qed.

End EntryPoints.

(* ===================================================================== *)
(** * The default controller behind the entry points                      *)
(* ===================================================================== *)

Section DefaultControllerRequests.
Context `{Collaborators}.

Lemma DefaultController_run_encoded (rest : RESTController) (s : string)
    (data o E : value) (issued : list Request) :
  encode data true = Normal E ->
  DefaultController_run rest s data o issued =
    (Normal (then_ (rest (mkRequest POST ("functions/" ++ s) E o)) run_then),
     (issued ++ [mkRequest POST ("functions/" ++ s) E o])%list).
Proof.
  intros HE. unfold DefaultController_run, lift, request, mbind, M_bind.
  rewrite HE. reflexivity.
Qed.

Lemma DefaultController_run_throws (rest : RESTController) (s : string)
    (data o : value) (issued : list Request) (e : exn) :
  fst (DefaultController_run rest s data o issued) = Throw e ->
  encode data true = Throw e.
Proof.
  unfold DefaultController_run, lift, request, mbind, M_bind.
  destruct (encode data true); simpl; intros Hx; [discriminate Hx | by injection Hx as ->].
Qed.

Lemma DefaultController_startJob_encoded (rest : RESTController) (s : string)
    (data o E : value) (issued : list Request) :
  encode data true = Normal E ->
  DefaultController_startJob rest s data o issued =
    (Normal (rest (mkRequest POST ("jobs/" ++ s) E o)),
     (issued ++ [mkRequest POST ("jobs/" ++ s) E o])%list).
Proof.
  intros HE. unfold DefaultController_startJob, lift, request, mbind, M_bind.
  rewrite HE. reflexivity.
Qed.

Lemma DefaultController_startJob_throws (rest : RESTController) (s : string)
    (data o : value) (issued : list Request) (e : exn) :
  fst (DefaultController_startJob rest s data o issued) = Throw e ->
  encode data true = Throw e.
Proof.
  unfold DefaultController_startJob, lift, request, mbind, M_bind.
  destruct (encode data true); simpl; intros Hx; [discriminate Hx | by injection Hx as ->].
Qed.

(** C5: a name that is not a string, or is the empty string, makes [run]
    and [startJob] throw their [TypeError] to the caller (the call does not
    return a promise) with the list of issued requests unchanged.  A
    non-empty string name passes the check: the call is handed to the
    registered controller, and with the module's own controller the only
    exception that can reach the caller is one thrown by [encode]. *)
Theorem name_check_is_synchronous
    (cm : CoreManager) (name data opts : value) (issued : list Request) :
  (typeof name <> "string" \/ name = VStr "" ->
     run cm name data opts issued =
       (Throw (TypeError "Cloud function name must be a string."), issued)
     /\ startJob cm name data issued =
       (Throw (TypeError "Cloud job name must be a string."), issued))
  /\ (forall s, name = VStr s -> s <> "" ->
        run cm name data opts issued =
          ctl_run (getCloudController cm) (getRESTController cm) s data
            (VObj (requestOptions (or_else opts (VObj ∅)))) issued
        /\ startJob cm name data issued =
          ctl_startJob (getCloudController cm) (getRESTController cm) s data
            (VObj {[ "useMasterKey" := VBool true ]}) issued
        /\ (forall e, fst (run (module_load cm) name data opts issued) = Throw e ->
              encode data true = Throw e)
        /\ (forall e, fst (startJob (module_load cm) name data issued) = Throw e ->
              encode data true = Throw e)).
Proof.
  split.
  - intros [Hty | ->].
    + destruct name; done.
    + done.
  - intros s -> Hs.
    rewrite !run_valid_name, !startJob_valid_name by done.
    split_and!; try done.
    + intros e. apply DefaultController_run_throws.
    + intros e. apply DefaultController_startJob_throws.
Qed.

(** C7: with the module's controller registered, [run] on a non-empty
    string name and a payload that [encode] accepts appends exactly one
    request to those already issued: a POST to ['functions/' + name] whose
    body is [encode(data, true)] and whose options are the normalized
    record; the promise returned is the transport's promise followed by
    the response callback. *)
Theorem run_issues_one_post
    (cm : CoreManager) (s : string) (data opts E : value)
    (issued : list Request) :
  s <> "" ->
  encode data true = Normal E ->
  let req := mkRequest POST ("functions/" ++ s) E
               (VObj (requestOptions (or_else opts (VObj ∅)))) in
  run (module_load cm) (VStr s) data opts issued =
    (Normal (then_ (getRESTController cm req) run_then),
     (issued ++ [req])%list).
Proof.
  intros Hs HE req. rewrite run_valid_name by done.
  by apply DefaultController_run_encoded.
Qed.

(** C8: with the module's controller registered, [startJob] on a non-empty
    string name and a payload that [encode] accepts appends exactly one
    request: a POST to ['jobs/' + name] with body [encode(data, true)] and
    options [{useMasterKey: true}]; it returns the transport's promise
    itself, so it settles exactly as the transport does. *)
Theorem startJob_issues_one_post
    (cm : CoreManager) (s : string) (data E : value) (issued : list Request) :
  s <> "" ->
  encode data true = Normal E ->
  let req := mkRequest POST ("jobs/" ++ s) E
               (VObj {[ "useMasterKey" := VBool true ]}) in
  startJob (module_load cm) (VStr s) data issued =
    (Normal (getRESTController cm req), (issued ++ [req])%list).
Proof.
  intros Hs HE req. rewrite startJob_valid_name by done.
  by apply DefaultController_startJob_encoded.
Qed.

(** C9: with the module's controller registered, every call of
    [getJobsData] appends exactly one request: a GET to
    ['cloud_code/jobs/data'] with body [null] and options
    [{useMasterKey: true}]; it returns the transport's promise itself. *)
Theorem getJobsData_issues_one_get (cm : CoreManager) (issued : list Request) :
  getJobsData (module_load cm) issued =
    (Normal (getRESTController cm
               (mkRequest GET "cloud_code/jobs/data" VNull
                  (VObj {[ "useMasterKey" := VBool true ]}))),
     (issued ++ [mkRequest GET "cloud_code/jobs/data" VNull
                   (VObj {[ "useMasterKey" := VBool true ]})])%list).
Proof. reflexivity. Qed.

End DefaultControllerRequests.

(* ===================================================================== *)
(** * Validation and decoding of the reply to [run]                       *)
(* ===================================================================== *)

Section ResponseValidation.
Context `{Collaborators}.

Lemma shadowed_not_empty (fields : gmap string value) :
  is_Some (fields !! "hasOwnProperty") -> 0 < size fields.
Proof.
  intros [v Hv]. destruct (decide (size fields = 0)) as [Hz|Hz]; [|lia].
  apply map_size_empty_inv in Hz. subst. by rewrite lookup_empty in Hv.
Qed.

(** A malformed envelope is refused with the typed error, provided the
    reply does not hide [hasOwnProperty]. *)
Lemma run_then_lacks_result (res : value) :
  lacks_result res -> ~ shadows_hasOwnProperty res ->
  run_then res =
    Throw (ParseError INVALID_JSON "The server returned an invalid response.").
Proof.
  unfold run_then. destruct res as [| |b|x|s|items|fields]; simpl; try done.
  - intros Hlen _. by rewrite bool_decide_eq_true_2.
  - intros [Hsize Hres] Hshadow.
    rewrite bool_decide_eq_true_2 by done.
    destruct (fields !! "hasOwnProperty") eqn:Hown.
    + destruct Hshadow. eauto.
    + simpl. rewrite Hres. rewrite bool_decide_eq_false_2; [done|].
      by intros [? ?].
Qed.

(** The shape check calls [res.hasOwnProperty]: on a reply that owns a
    property of that name the call itself fails. *)
Lemma run_then_shadowed (res : value) :
  shadows_hasOwnProperty res ->
  run_then res = Throw (TypeError "res.hasOwnProperty is not a function").
Proof.
  unfold run_then. destruct res as [| |b|x|s|items|fields]; simpl; try done.
  intros Hshadow.
  rewrite bool_decide_eq_true_2 by by apply shadowed_not_empty.
  destruct Hshadow as [v ->]. reflexivity.
Qed.

(** [typeof null] is ['object'], so the shape check reaches
    [Object.keys(null)]. *)
Lemma run_then_null :
  run_then VNull = Throw (TypeError "Cannot convert undefined or null to object").
Proof. reflexivity. Qed.

(** Every other reply is decoded, and the call resolves with the own
    property [result] of the decoded value or with [undefined]. *)
Lemma run_then_accepts (res : value) :
  res <> VNull -> ~ lacks_result res ->
  ~ shadows_hasOwnProperty res -> ~ shadows_hasOwnProperty (decode res) ->
  run_then res =
    Normal (Fulfilled (default VUndefined (own_result (decode res)))).
Proof.
  intros Hnull Hlacks Hshadow Hshadow'.
  assert (Hdecoded : forall d, ~ shadows_hasOwnProperty d ->
    ((if ToBoolean d then hasOwnProperty_result "decoded" d else Normal false)
       ≫= (fun has : bool =>
             if has then Normal (Promise_resolve (prop d "result"))
             else Normal (Promise_resolve VUndefined)))
    = Normal (Fulfilled (default VUndefined (own_result d)))).
  { intros d Hd. destruct d as [| |b|x|s|items|fields]; simpl; try done.
    - by destruct b.
    - by destruct x.
    - by destruct (bool_decide (s = "")).
    - destruct (fields !! "hasOwnProperty") eqn:Hown;
        [destruct Hd; simpl; rewrite ?Hown; eauto|].
      simpl. by destruct (fields !! "result") eqn:Hres. }
  unfold run_then.
  destruct res as [| |b|x|s|items|fields]; simpl;
    try done; try (by apply Hdecoded).
  - simpl in Hlacks. rewrite bool_decide_eq_false_2 by done.
    by apply Hdecoded.
  - simpl in Hlacks, Hshadow.
    destruct (decide (0 < size fields)) as [Hsize|Hsize].
    + rewrite bool_decide_eq_true_2 by done.
      destruct (fields !! "hasOwnProperty") eqn:Hown;
        [destruct Hshadow; simpl; rewrite ?Hown; eauto|].
      simpl. destruct (fields !! "result") eqn:Hres.
      * rewrite bool_decide_eq_true_2 by eauto. by apply Hdecoded.
      * destruct Hlacks. done.
    + rewrite bool_decide_eq_false_2 by done. by apply Hdecoded.
Qed.

(** What [run] returns once the transport has fulfilled the request. *)
Lemma run_fulfilled (cm : CoreManager) (s : string) (data opts E res : value)
    (issued : list Request) :
  s <> "" ->
  encode data true = Normal E ->
  getRESTController cm
    (mkRequest POST ("functions/" ++ s) E
       (VObj (requestOptions (or_else opts (VObj ∅))))) = Fulfilled res ->
  fst (run (module_load cm) (VStr s) data opts issued)
    = Normal (then_ (Fulfilled res) run_then).
Proof.
  intros Hs HE Hreply. rewrite run_valid_name by done. simpl.
  rewrite (DefaultController_run_encoded _ _ _ _ E) by done. simpl.
  by rewrite Hreply.
Qed.

Lemma run_rejects_malformed_reply (cm : CoreManager) (s : string)
    (data opts E res : value) (issued : list Request) :
  s <> "" ->
  encode data true = Normal E ->
  getRESTController cm
    (mkRequest POST ("functions/" ++ s) E
       (VObj (requestOptions (or_else opts (VObj ∅))))) = Fulfilled res ->
  lacks_result res -> ~ shadows_hasOwnProperty res ->
  fst (run (module_load cm) (VStr s) data opts issued)
    = Normal (Rejected (ParseError INVALID_JSON
                          "The server returned an invalid response.")).
Proof.
  intros Hs HE Hreply Hlacks Hshadow.
  rewrite (run_fulfilled _ _ _ _ E res) by done.
  simpl. by rewrite run_then_lacks_result.
Qed.

Lemma run_resolves_other_reply (cm : CoreManager) (s : string)
    (data opts E res : value) (issued : list Request) :
  s <> "" ->
  encode data true = Normal E ->
  getRESTController cm
    (mkRequest POST ("functions/" ++ s) E
       (VObj (requestOptions (or_else opts (VObj ∅))))) = Fulfilled res ->
  res <> VNull -> ~ lacks_result res ->
  ~ shadows_hasOwnProperty res -> ~ shadows_hasOwnProperty (decode res) ->
  fst (run (module_load cm) (VStr s) data opts issued)
    = Normal (Fulfilled (default VUndefined (own_result (decode res)))).
Proof.
  intros Hs HE Hreply Hnull Hlacks Hshadow Hshadow'.
  rewrite (run_fulfilled _ _ _ _ E res) by done.
  simpl. by rewrite run_then_accepts.
Qed.

End ResponseValidation.

Section RoundTrip.
Context `{Collaborators}.

(** C3: for a non-empty name and a payload [P] that [encode] accepts, when
    the transport answers the request with [{result: encode(P, true)}],
    [run] resolves with [decode(encode(P, true))].  The decoder is a
    collaborator; it is assumed to decode this plain envelope field by
    field. *)
Theorem run_round_trip
    (cm : CoreManager) (s : string) (P opts E : value) (issued : list Request) :
  s <> "" ->
  encode P true = Normal E ->
  getRESTController cm
    (mkRequest POST ("functions/" ++ s) E
       (VObj (requestOptions (or_else opts (VObj ∅)))))
    = Fulfilled (VObj {[ "result" := E ]}) ->
  decode (VObj {[ "result" := E ]}) = VObj {[ "result" := decode E ]} ->
  fst (run (module_load cm) (VStr s) P opts issued)
    = Normal (Fulfilled (decode E)).
Proof.
  intros Hs HE Hreply Hdecode.
  rewrite (run_resolves_other_reply _ _ _ _ E (VObj {[ "result" := E ]}));
    try done.
  - rewrite Hdecode. simpl. by rewrite lookup_singleton_eq.
  - simpl. rewrite lookup_singleton_eq. by intros [_ ?].
  - simpl. by rewrite lookup_singleton_ne.
  - rewrite Hdecode. simpl. by rewrite lookup_singleton_ne.
Qed.

End RoundTrip.

Section ControllerIndirection.
Context `{Collaborators}.

(** C4 (amended): [run], [getJobsData] and [startJob] hand their work to
    the controller read from the registry, so replacing the registered
    controller can change what each of them does; [getJobStatus] does not
    use that controller: it is the lookup
    [new ParseQuery('_JobStatus').get(jobStatusId, {useMasterKey: true})] of
    the query collaborator, and does the same whatever cloud controller is
    registered. *)
Theorem three_operations_delegate
    (cm : CoreManager) (s : string) (data opts jobStatusId : value) :
  s <> "" ->
  (run cm (VStr s) data opts =
     ctl_run (getCloudController cm) (getRESTController cm) s data
       (VObj (requestOptions (or_else opts (VObj ∅))))
   /\ getJobsData cm =
     ctl_getJobsData (getCloudController cm) (getRESTController cm)
       (VObj {[ "useMasterKey" := VBool true ]})
   /\ startJob cm (VStr s) data =
     ctl_startJob (getCloudController cm) (getRESTController cm) s data
       (VObj {[ "useMasterKey" := VBool true ]}))
  /\ depends_on_cloud_controller (fun cm => run cm (VStr s) data opts)
  /\ depends_on_cloud_controller getJobsData
  /\ depends_on_cloud_controller (fun cm => startJob cm (VStr s) data)
  /\ getJobStatus cm jobStatusId =
       ParseQuery_get "_JobStatus" jobStatusId
         (VObj {[ "useMasterKey" := VBool true ]})
  /\ (forall c, getJobStatus (setCloudController c cm) jobStatusId
                = getJobStatus cm jobStatusId)
  /\ ~ depends_on_cloud_controller (fun cm => getJobStatus cm jobStatusId).
Proof.
  intros Hs. split_and!.
  - by apply run_valid_name.
  - reflexivity.
  - by apply startJob_valid_name.
  - exists (sample_registry (const_transport VNull)),
      (stub_controller (Fulfilled VNull)), [].
    rewrite !run_valid_name by done. simpl. discriminate.
  - exists (sample_registry (const_transport VNull)),
      (stub_controller (Fulfilled VNull)), [].
    simpl. discriminate.
  - exists (sample_registry (const_transport VNull)),
      (stub_controller (Fulfilled VNull)), [].
    rewrite !startJob_valid_name by done. simpl. discriminate.
  - reflexivity.
  - reflexivity.
  - intros (cm' & c & issued & Hne). by apply Hne.
Qed.

End ControllerIndirection.

(* ===================================================================== *)
(** * Replies on which the shape check itself fails                       *)
(* ===================================================================== *)

(** C1: the reply [{hasOwnProperty: true}] is an object with one key and no
    [result], yet [run] does not reject with the typed [ParseError]: the
    shape check calls [res.hasOwnProperty], which this reply overrides with
    a non-function, and the call rejects with that [TypeError].  The first
    part holds for every choice of collaborators; the second runs the whole
    call against a transport that answers with this reply. *)
Theorem run_shadowed_reply_rejects_with_TypeError :
  let reply := VObj {[ "hasOwnProperty" := VBool true ]} in
  lacks_result reply
  /\ (forall C : Collaborators,
        @run_then C reply
        = Throw (TypeError "res.hasOwnProperty is not a function"))
  /\ run
       (@module_load sample_collaborators (sample_registry (const_transport reply)))
       (VStr "hello") (VObj ∅) VUndefined []
     = (Normal (Rejected (TypeError "res.hasOwnProperty is not a function")),
        [mkRequest POST "functions/hello" (VObj ∅) (VObj ∅)]).
Proof.
  intros reply. split_and!.
  - split; [vm_compute; repeat constructor | reflexivity].
  - intros C. apply run_then_shadowed. simpl. by rewrite lookup_singleton_eq.
  - reflexivity.
Qed.

(** C2: the reply [null] is not a malformed envelope, yet [run] rejects:
    [typeof null] is ['object'], so the shape check evaluates
    [Object.keys(null)], which throws, and the call rejects with that
    [TypeError] instead of resolving with [undefined].  The first part holds
    for every choice of collaborators; the second runs the whole call
    against a transport that answers [null]. *)
Theorem run_null_reply_rejects_with_TypeError :
  ~ lacks_result VNull
  /\ (forall C : Collaborators,
        @run_then C VNull
        = Throw (TypeError "Cannot convert undefined or null to object"))
  /\ run
       (@module_load sample_collaborators (sample_registry (const_transport VNull)))
       (VStr "hello") (VObj ∅) VUndefined []
     = (Normal (Rejected (TypeError "Cannot convert undefined or null to object")),
        [mkRequest POST "functions/hello" (VObj ∅) (VObj ∅)]).
Proof.
  split_and!.
  - intros [].
  - intros C. apply run_then_null.
  - reflexivity.
Qed.

(** C4, as stated, fails for [getJobStatus]: looking up the job status
    ['abc123'] does not depend on the registered cloud controller. *)
Lemma getJobStatus_abc123_ignores_cloud_controller :
  ~ depends_on_cloud_controller
      (fun cm => @getJobStatus sample_collaborators cm (VStr "abc123")).
Proof.
  unfold depends_on_cloud_controller.
  intros (cm & c & issued & Hne). apply Hne. reflexivity.
Qed.

(** C6, as stated, fails on an array:
    [run('hello', null, {context: [1]})] forwards the context although an
    array is an ordered sequence, not a keyed mapping. *)
Lemma run_forwards_array_context :
  let one := VNum (S754_finite false 4503599627370496 (-52)) in
  let opts := VObj {[ "context" := VArr [one] ]} in
  let caller := or_else opts (VObj ∅) in
  let out := requestOptions caller in
  out !! "context" = Some (VArr [one])
  /\ ~ keyed_mapping (prop caller "context")
  /\ ~ (is_Some (out !! "context") <-> keyed_mapping (prop caller "context"))
  /\ run (@module_load sample_collaborators (sample_registry echo_transport))
       (VStr "hello") VNull opts []
     = (Normal (Fulfilled VNull),
        [mkRequest POST "functions/hello" VNull
           (VObj {[ "context" := VArr [one] ]})]).
Proof.
  intros one opts caller out. split_and!.
  - reflexivity.
  - intros [].
  - intros [Hforward _]. apply Hforward. by exists (VArr [one]).
  - reflexivity.
Qed.

(* ===================================================================== *)
(** * The theorems at concrete inputs                                     *)
(* ===================================================================== *)

(** [run('hello', {a: 'x'})] against the echoing transport. *)
Lemma run_round_trip_witness :
  let P := VObj {[ "a" := VStr "x" ]} in
  let cm := sample_registry echo_transport in
  "hello" <> ""
  /\ @encode sample_collaborators P true = Normal P
  /\ getRESTController cm
       (mkRequest POST "functions/hello" P (VObj (requestOptions (VObj ∅))))
     = Fulfilled (VObj {[ "result" := P ]})
  /\ @decode sample_collaborators (VObj {[ "result" := P ]})
     = VObj {[ "result" := @decode sample_collaborators P ]}
  /\ fst (run (@module_load sample_collaborators cm) (VStr "hello") P VUndefined [])
     = Normal (Fulfilled P).
Proof.
  intros P cm.
  assert (Hname : "hello" <> "") by discriminate.
  assert (Henc : @encode sample_collaborators P true = Normal P) by reflexivity.
  assert (Hreply : getRESTController cm
            (mkRequest POST "functions/hello" P (VObj (requestOptions (VObj ∅))))
          = Fulfilled (VObj {[ "result" := P ]})) by reflexivity.
  assert (Hdec : @decode sample_collaborators (VObj {[ "result" := P ]})
          = VObj {[ "result" := @decode sample_collaborators P ]}) by reflexivity.
  split_and!; try assumption.
  exact (@run_round_trip sample_collaborators cm "hello" P VUndefined P []
           Hname Henc Hreply Hdec).
Defined.

(** Swapping the controller under [run('hello')], [getJobsData()],
    [startJob('hello')] and [getJobStatus('abc123')], with a query
    collaborator that answers with the lookup it was asked to make. *)
Lemma three_operations_delegate_witness :
  "hello" <> ""
  /\ depends_on_cloud_controller (fun cm => run cm (VStr "hello") VNull VUndefined)
  /\ depends_on_cloud_controller (@getJobsData)
  /\ depends_on_cloud_controller (fun cm => startJob cm (VStr "hello") VNull)
  /\ @getJobStatus echo_query_collaborators (sample_registry echo_transport)
        (VStr "abc123") []
      = (Normal (Fulfilled
                   (VObj {[ "className" := VStr "_JobStatus";
                            "objectId" := VStr "abc123";
                            "options" := VObj {[ "useMasterKey" := VBool true ]} ]})),
         [])
  /\ ~ depends_on_cloud_controller
         (fun cm => @getJobStatus echo_query_collaborators cm (VStr "abc123")).
Proof.
  assert (Hname : "hello" <> "") by discriminate.
  split; [exact Hname|].
  pose proof (@three_operations_delegate echo_query_collaborators
                (sample_registry echo_transport) "hello" VNull VUndefined
                (VStr "abc123") Hname)
    as (_ & Hrun & Hjobs & Hstart & Hquery & _ & Hstatus).
  split_and!; [exact Hrun | exact Hjobs | exact Hstart | | exact Hstatus].
  exact (f_equal (fun m => m []) Hquery).
Defined.

(** The name check on [run(true, ...)], [startJob(true, ...)] and
    [run('hello', ...)]. *)
Lemma name_check_is_synchronous_witness :
  let cm := sample_registry echo_transport in
  (typeof (VBool true) <> "string" \/ VBool true = VStr "")
  /\ run cm (VBool true) VNull VUndefined []
     = (Throw (TypeError "Cloud function name must be a string."), [])
  /\ startJob cm (VBool true) VNull []
     = (Throw (TypeError "Cloud job name must be a string."), [])
  /\ (VStr "hello" = VStr "hello" /\ "hello" <> "")
  /\ run cm (VStr "hello") VNull VUndefined [] = (Normal Pending, []).
Proof.
  intros cm.
  assert (Hbad : typeof (VBool true) <> "string" \/ VBool true = VStr "")
    by (left; discriminate).
  assert (Hname : "hello" <> "") by discriminate.
  pose proof (@name_check_is_synchronous sample_collaborators cm
                (VBool true) VNull VUndefined []) as [Hthrow _].
  pose proof (@name_check_is_synchronous sample_collaborators cm
                (VStr "hello") VNull VUndefined []) as [_ Hpass].
  destruct (Hthrow Hbad) as [Hrun HstartJob].
  destruct (Hpass "hello" eq_refl Hname) as (Hdelegated & _).
  split_and!;
    [exact Hbad | exact Hrun | exact HstartJob | reflexivity | exact Hname
    | exact Hdelegated].
Defined.

(** [run('hello', null, {useMasterKey: true, context: {}, timeout: true,
    sessionToken: ''})]: only [useMasterKey] and [context] go out. *)
Lemma run_forwards_only_recognised_options_witness :
  let opts := VObj {[ "useMasterKey" := VBool true; "context" := VObj ∅;
                      "timeout" := VBool true; "sessionToken" := VStr "" ]} in
  let out := requestOptions (or_else opts (VObj ∅)) in
  "hello" <> ""
  /\ out = {[ "useMasterKey" := VBool true; "context" := VObj ∅ ]}
  /\ (forall k, k ∉ forwarded_keys -> out !! k = None)
  /\ (is_Some (out !! "context") <->
        typeof (prop (or_else opts (VObj ∅)) "context") = "object"
        /\ prop (or_else opts (VObj ∅)) "context" <> VNull)
  /\ (is_Some (out !! "context") <->
        keyed_mapping (prop (or_else opts (VObj ∅)) "context")
        \/ exists items, prop (or_else opts (VObj ∅)) "context" = VArr items).
Proof.
  intros opts out.
  assert (Hname : "hello" <> "") by discriminate.
  pose proof (run_forwards_only_recognised_options
                (sample_registry echo_transport) "hello" VNull opts Hname)
    as (_ & _ & Hdropped & _ & Hcontext & Hshape).
  split_and!;
    [exact Hname | reflexivity | exact Hdropped | exact Hcontext | exact Hshape].
Defined.

(** [run('hello', {a: 'x'}, {sessionToken: 'r:abc'})] with the module's
    controller: one POST to [functions/hello]. *)
Lemma run_issues_one_post_witness :
  let P := VObj {[ "a" := VStr "x" ]} in
  let opts := VObj {[ "sessionToken" := VStr "r:abc" ]} in
  "hello" <> ""
  /\ @encode sample_collaborators P true = Normal P
  /\ snd (run (@module_load sample_collaborators (sample_registry echo_transport))
            (VStr "hello") P opts [])
     = [mkRequest POST "functions/hello" P opts].
Proof.
  intros P opts.
  assert (Hname : "hello" <> "") by discriminate.
  assert (Henc : @encode sample_collaborators P true = Normal P) by reflexivity.
  split_and!; try assumption.
  exact (f_equal snd
           (@run_issues_one_post sample_collaborators
              (sample_registry echo_transport) "hello" P opts P [] Hname Henc)).
Defined.

(** [startJob('nightly', {a: 'x'})] with the module's controller: one POST
    to [jobs/nightly], resolved with what the transport answers. *)
Lemma startJob_issues_one_post_witness :
  let P := VObj {[ "a" := VStr "x" ]} in
  let req := mkRequest POST "jobs/nightly" P (VObj {[ "useMasterKey" := VBool true ]}) in
  "nightly" <> ""
  /\ @encode sample_collaborators P true = Normal P
  /\ startJob (@module_load sample_collaborators
                 (sample_registry (const_transport (VStr "jobStatusId"))))
       (VStr "nightly") P []
     = (Normal (Fulfilled (VStr "jobStatusId")), [req]).
Proof.
  intros P req.
  assert (Hname : "nightly" <> "") by discriminate.
  assert (Henc : @encode sample_collaborators P true = Normal P) by reflexivity.
  split_and!; try assumption.
  exact (@startJob_issues_one_post sample_collaborators
           (sample_registry (const_transport (VStr "jobStatusId")))
           "nightly" P P [] Hname Henc).
Defined.

(** [run('hello', null, {useMasterKey: false, sessionToken: 'r:abc'})]
    behaves as [run('hello', null, {sessionToken: 'r:abc'})]. *)
Lemma run_drops_falsy_credentials_witness :
  let fields : gmap string value :=
    {[ "useMasterKey" := VBool false; "sessionToken" := VStr "r:abc" ]} in
  let cm := sample_registry echo_transport in
  (("useMasterKey" = "useMasterKey" /\ fields !! "useMasterKey" = Some (VBool false))
   \/ ("useMasterKey" = "sessionToken" /\ fields !! "useMasterKey" = Some (VStr "")))
  /\ requestOptions (or_else (VObj fields) (VObj ∅)) !! "useMasterKey" = None
  /\ run cm (VStr "hello") VNull (VObj fields)
     = run cm (VStr "hello") VNull (VObj (delete "useMasterKey" fields)).
Proof.
  intros fields cm.
  assert (Hfalse :
    ("useMasterKey" = "useMasterKey" /\ fields !! "useMasterKey" = Some (VBool false))
    \/ ("useMasterKey" = "sessionToken" /\ fields !! "useMasterKey" = Some (VStr "")))
    by (left; split; reflexivity).
  split; [exact Hfalse|].
  exact (run_drops_falsy_credentials cm (VStr "hello") VNull fields
           "useMasterKey" Hfalse).
Defined.

(* ===================================================================== *)
(** * Further properties of the reply handling of [run]                   *)
(* ===================================================================== *)

Section ReplyClassification.
Context `{Collaborators}.

Lemma shadows_hasOwnProperty_cases (v : value) :
  shadows_hasOwnProperty v \/ ~ shadows_hasOwnProperty v.
Proof.
  destruct v as [| |b|x|s|items|fields]; simpl; try (right; tauto).
  destruct (fields !! "hasOwnProperty"); [left; eauto | right; by intros [? ?]].
Qed.

Lemma lacks_result_cases (res : value) :
  lacks_result res \/ ~ lacks_result res.
Proof.
  destruct res as [| |b|x|s|items|fields]; simpl; try (right; tauto).
  - destruct (decide (0 < length items)); tauto.
  - destruct (decide (0 < size fields)); [|right; tauto].
    destruct (fields !! "result"); [right; by intros [_ ?] | left; done].
Qed.

(** A reply that passes the shape check but whose decoded value hides
    [hasOwnProperty]: the second call of the method fails. *)
Lemma run_then_decoded_shadowed (res : value) :
  res <> VNull -> ~ lacks_result res ->
  ~ shadows_hasOwnProperty res -> shadows_hasOwnProperty (decode res) ->
  run_then res = Throw (TypeError "decoded.hasOwnProperty is not a function").
Proof.
  intros Hnull Hlacks Hshadow Hshadow'.
  assert (Hdecoded : forall d, shadows_hasOwnProperty d ->
    ((if ToBoolean d then hasOwnProperty_result "decoded" d else Normal false)
       ≫= (fun has : bool =>
             if has then Normal (Promise_resolve (prop d "result"))
             else Normal (Promise_resolve VUndefined)))
    = Throw (TypeError "decoded.hasOwnProperty is not a function")).
  { intros d Hd. destruct d as [| |b|x|s|items|fields]; simpl in *; try done.
    by destruct Hd as [v ->]. }
  unfold run_then.
  destruct res as [| |b|x|s|items|fields]; simpl;
    try done; try (by apply Hdecoded).
  - simpl in Hlacks. rewrite bool_decide_eq_false_2 by done.
    by apply Hdecoded.
  - simpl in Hlacks, Hshadow.
    destruct (decide (0 < size fields)) as [Hsize|Hsize].
    + rewrite bool_decide_eq_true_2 by done.
      destruct (fields !! "hasOwnProperty") eqn:Hown;
        [destruct Hshadow; simpl; rewrite ?Hown; eauto|].
      simpl. destruct (fields !! "result") eqn:Hres.
      * rewrite bool_decide_eq_true_2 by eauto. by apply Hdecoded.
      * destruct Hlacks. done.
    + rewrite bool_decide_eq_false_2 by done. by apply Hdecoded.
Qed.

(** The five ways the callback of [run] can end, by the shape of the
    reply and of its decoded value. *)
Lemma run_then_cases (res : value) :
  (res = VNull
   /\ run_then res = Throw (TypeError "Cannot convert undefined or null to object"))
  \/ (shadows_hasOwnProperty res
      /\ run_then res = Throw (TypeError "res.hasOwnProperty is not a function"))
  \/ (lacks_result res /\ ~ shadows_hasOwnProperty res
      /\ run_then res =
           Throw (ParseError INVALID_JSON "The server returned an invalid response."))
  \/ (res <> VNull /\ ~ lacks_result res /\ ~ shadows_hasOwnProperty res
      /\ shadows_hasOwnProperty (decode res)
      /\ run_then res = Throw (TypeError "decoded.hasOwnProperty is not a function"))
  \/ (res <> VNull /\ ~ lacks_result res /\ ~ shadows_hasOwnProperty res
      /\ ~ shadows_hasOwnProperty (decode res)
      /\ run_then res =
           Normal (Fulfilled (default VUndefined (own_result (decode res))))).
Proof.
  assert (res = VNull \/ res <> VNull) as [->|Hnull]
    by (destruct res; first [left; reflexivity | right; discriminate]).
  { left. split; [done | apply run_then_null]. }
  destruct (shadows_hasOwnProperty_cases res) as [Hs|Hs].
  { right; left. split; [done | by apply run_then_shadowed]. }
  destruct (lacks_result_cases res) as [Hl|Hl].
  { right; right; left. split_and!; [done..|by apply run_then_lacks_result]. }
  destruct (shadows_hasOwnProperty_cases (decode res)) as [Hd|Hd].
  - right; right; right; left.
    split_and!; [done..|by apply run_then_decoded_shadowed].
  - right; right; right; right.
    split_and!; [done..|by apply run_then_accepts].
Qed.

End ReplyClassification.

Section ReplyOutcomes.
Context `{Collaborators}.

(** X1: when the transport does not fulfil the request (it rejects, or it
    never settles), [run] hands that very outcome to the caller: a
    rejection reason is passed on unchanged, the callback and the decoder
    play no part, and still exactly one request was issued. *)
Theorem run_passes_transport_failure_through
    (cm : CoreManager) (s : string) (data opts E : value) (issued : list Request) :
  s <> "" ->
  encode data true = Normal E ->
  (forall res, getRESTController cm (run_request s E opts) <> Fulfilled res) ->
  run (module_load cm) (VStr s) data opts issued
    = (Normal (getRESTController cm (run_request s E opts)),
       (issued ++ [run_request s E opts])%list).
Proof.
  unfold run_request. intros Hs HE Hfail.
  rewrite run_valid_name by done. simpl.
  rewrite (DefaultController_run_encoded _ _ _ _ E) by done.
  destruct (getRESTController cm _) as [res|e|] eqn:Hp; simpl; try done.
  by destruct (Hfail res).
Qed.

(** X2: once the transport has fulfilled the request with [res], [run]
    rejects with the typed error [ParseError(INVALID_JSON, 'The server
    returned an invalid response.')] exactly when [res] is an object or
    array with at least one key and no own [result], and does not carry a
    key named [hasOwnProperty]. *)
Theorem run_rejects_invalid_json_iff
    (cm : CoreManager) (s : string) (data opts E res : value)
    (issued : list Request) :
  s <> "" ->
  encode data true = Normal E ->
  getRESTController cm (run_request s E opts) = Fulfilled res ->
  fst (run (module_load cm) (VStr s) data opts issued)
    = Normal (Rejected (ParseError INVALID_JSON
                          "The server returned an invalid response."))
  <-> lacks_result res /\ ~ shadows_hasOwnProperty res.
Proof.
  unfold run_request. intros Hs HE Hreply.
  rewrite (run_fulfilled _ _ _ _ E res) by done. simpl.
  destruct (run_then_cases res)
    as [[-> Hr]|[[Hsh Hr]|[(Hl & Hsh & Hr)|[(Hn & Hl & Hsh & Hd & Hr)
       |(Hn & Hl & Hsh & Hd & Hr)]]]];
    rewrite Hr; split; try done; try tauto; intros [? ?]; try done.
Qed.


(** X4: a void reply resolves with [undefined].  When the reply is a
    primitive or [undefined], the empty object [{}] or the empty array [[]],
    and the decoder returns it as it is, [run] fulfils with [undefined]:
    the reply itself is never handed to the caller. *)
Theorem run_void_reply_resolves_undefined
    (cm : CoreManager) (s : string) (data opts E res : value)
    (issued : list Request) :
  s <> "" ->
  encode data true = Normal E ->
  getRESTController cm (run_request s E opts) = Fulfilled res ->
  typeof res <> "object" \/ res = VObj ∅ \/ res = VArr [] ->
  decode res = res ->
  fst (run (module_load cm) (VStr s) data opts issued)
    = Normal (Fulfilled VUndefined).
Proof.
  unfold run_request. intros Hs HE Hreply Hvoid Hdecode.
  rewrite (run_fulfilled _ _ _ _ E res) by done. simpl.
  rewrite run_then_accepts; rewrite ?Hdecode.
  - destruct Hvoid as [Hty|[->| ->]]; [|done..].
    destruct res as [| |b|x|s'|items|fields]; simpl in *;
      first [tauto | congruence | done].
  - destruct Hvoid as [Hty|[->| ->]]; [|done..]. by intros ->.
  - destruct Hvoid as [Hty|[->| ->]]; simpl.
    + destruct res as [| |b|x|s'|items|fields]; simpl in *;
      first [tauto | congruence | done].
    + rewrite map_size_empty. lia.
    + lia.
  - destruct Hvoid as [Hty|[->| ->]]; simpl.
    + destruct res as [| |b|x|s'|items|fields]; simpl in *;
      first [tauto | congruence | done].
    + rewrite lookup_empty. by intros [? ?].
    + tauto.
  - destruct Hvoid as [Hty|[->| ->]]; simpl.
    + destruct res as [| |b|x|s'|items|fields]; simpl in *;
      first [tauto | congruence | done].
    + rewrite lookup_empty. by intros [? ?].
    + tauto.
Qed.

End ReplyOutcomes.

(* ===================================================================== *)
(** * Further properties of the options record built by [run]             *)
(* ===================================================================== *)

Section OptionsNormalisation.

Lemma requestOptions_non_object (o : value) :
  (forall fields, o <> VObj fields) -> requestOptions o = ∅.
Proof.
  intros Hno. destruct o as [| |b|x|s|items|fields]; try reflexivity.
  by destruct (Hno fields).
Qed.

(** The record depends on the caller's options only through the values of
    the three forwarded keys. *)
Lemma requestOptions_ext (o o' : value) :
  (forall k, k ∈ forwarded_keys -> prop o k = prop o' k) ->
  requestOptions o = requestOptions o'.
Proof.
  intros Hext. unfold requestOptions.
  rewrite (Hext "useMasterKey"), (Hext "sessionToken"), (Hext "context");
    [reflexivity | unfold forwarded_keys; set_solver..].
Qed.

(** X5: normalising is idempotent.  The record [run] builds is already in
    normal form: building the record again from it changes nothing, so an
    options record that went through [run] can be passed to [run] again and
    reaches the controller unchanged. *)
Theorem requestOptions_idempotent
    (cm : CoreManager) (name data opts : value) :
  requestOptions (VObj (requestOptions opts)) = requestOptions opts
  /\ run cm name data (VObj (requestOptions (or_else opts (VObj ∅))))
     = run cm name data opts.
Proof.
  assert (Hidem : forall o, requestOptions (VObj (requestOptions o)) = requestOptions o).
  { intros o. apply map_eq. intros k.
    rewrite (requestOptions_lookup (VObj _)). simpl.
    destruct (decide (k = "useMasterKey")) as [->|Hk1].
    { rewrite requestOptions_lookup, decide_True by done.
      by destruct (ToBoolean (prop o "useMasterKey")) eqn:Ht; simpl; rewrite ?Ht. }
    destruct (decide (k = "sessionToken")) as [->|Hk2].
    { rewrite requestOptions_lookup, decide_False, decide_True by done.
      by destruct (ToBoolean (prop o "sessionToken")) eqn:Ht; simpl; rewrite ?Ht. }
    destruct (decide (k = "context")) as [->|Hk3].
    { rewrite requestOptions_lookup, !decide_False, decide_True by done.
      by destruct (ToBoolean (prop o "context")
                   && bool_decide (typeof (prop o "context") = "object")) eqn:Ht;
        simpl; rewrite ?Ht. }
    rewrite requestOptions_lookup, !decide_False by done. done. }
  split; [apply Hidem|].
  unfold run.
  change (or_else (VObj (requestOptions (or_else opts (VObj ∅)))) (VObj ∅))
    with (VObj (requestOptions (or_else opts (VObj ∅)))).
  by rewrite Hidem.
Qed.

(** X6: an option [run] does not recognise has no effect on the call.
    Adding, changing or removing a key other than [useMasterKey],
    [sessionToken] and [context] in the caller's options leaves the record
    handed to the controller, and so the whole call, as it was. *)
Theorem run_ignores_unrecognised_option
    (cm : CoreManager) (name data v : value) (fields : gmap string value)
    (k : string) :
  k ∉ forwarded_keys ->
  run cm name data (VObj (<[k := v]> fields)) = run cm name data (VObj fields)
  /\ run cm name data (VObj (delete k fields)) = run cm name data (VObj fields).
Proof.
  intros Hk.
  assert (Hins : requestOptions (VObj (<[k := v]> fields))
                 = requestOptions (VObj fields)).
  { apply requestOptions_ext. intros j Hj. simpl.
    rewrite lookup_insert_ne; [done|]. intros ->. done. }
  assert (Hdel : requestOptions (VObj (delete k fields))
                 = requestOptions (VObj fields)).
  { apply requestOptions_ext. intros j Hj. simpl.
    rewrite lookup_delete_ne; [done|]. intros ->. done. }
  unfold run.
  change (or_else (VObj (<[k := v]> fields)) (VObj ∅)) with (VObj (<[k := v]> fields)).
  change (or_else (VObj (delete k fields)) (VObj ∅)) with (VObj (delete k fields)).
  change (or_else (VObj fields) (VObj ∅)) with (VObj fields).
  by rewrite Hins, Hdel.
Qed.

(** X7: options that are not an object count as no options.  When the
    third argument of [run] is [undefined], [null], a boolean, a number, a
    string or an array, the record handed to the controller is empty and the
    call is the one made with no options at all. *)
Theorem run_non_object_options
    (cm : CoreManager) (name data opts : value) :
  (forall fields, opts <> VObj fields) ->
  requestOptions (or_else opts (VObj ∅)) = ∅
  /\ run cm name data opts = run cm name data VUndefined.
Proof.
  intros Hno.
  assert (Hempty : requestOptions (or_else opts (VObj ∅)) = ∅).
  { unfold or_else. destruct (ToBoolean opts).
    - by apply requestOptions_non_object.
    - reflexivity. }
  split; [exact Hempty|].
  unfold run. rewrite Hempty. reflexivity.
Qed.

End OptionsNormalisation.

(* ===================================================================== *)
(** * Encoding failures and the count of requests                         *)
(* ===================================================================== *)

Section RequestAccounting.
Context `{Collaborators}.

(** X8: the payload is encoded before anything is sent.  With the module's
    controller and a valid name, when [encode] throws, [run] and [startJob]
    throw that same exception to the caller (they do not return a rejected
    promise) and issue no request. *)
Theorem encode_failure_is_synchronous
    (cm : CoreManager) (s : string) (data opts : value) (e : exn)
    (issued : list Request) :
  s <> "" ->
  encode data true = Throw e ->
  run (module_load cm) (VStr s) data opts issued = (Throw e, issued)
  /\ startJob (module_load cm) (VStr s) data issued = (Throw e, issued).
Proof.
  intros Hs HE.
  rewrite run_valid_name, startJob_valid_name by done. simpl.
  unfold DefaultController_run, DefaultController_startJob, lift, mbind, M_bind.
  by rewrite HE.
Qed.

(** X9: with the module's controller, a call of [run] or [startJob] ends
    in one of two ways, whatever its arguments: it throws and the list of
    issued requests is unchanged, or it returns a promise and the list has
    grown by exactly one POST, to ['functions/' + name] or ['jobs/' + name],
    carrying the encoded payload.  Requests issued earlier are kept, in
    order. *)
Theorem entry_points_issue_at_most_one_request
    (cm : CoreManager) (name data opts : value) (issued : list Request) :
  ((exists e, run (module_load cm) name data opts issued = (Throw e, issued))
   \/ (exists s E, name = VStr s /\ s <> "" /\ encode data true = Normal E
         /\ run (module_load cm) name data opts issued
            = (Normal (then_ (getRESTController cm (run_request s E opts)) run_then),
               (issued ++ [run_request s E opts])%list)))
  /\ ((exists e, startJob (module_load cm) name data issued = (Throw e, issued))
      \/ (exists s E, name = VStr s /\ s <> "" /\ encode data true = Normal E
            /\ let req := mkRequest POST ("jobs/" ++ s) E
                            (VObj {[ "useMasterKey" := VBool true ]}) in
               startJob (module_load cm) name data issued
               = (Normal (getRESTController cm req), (issued ++ [req])%list))).
Proof.
  assert (Hname : (exists s, name = VStr s /\ s <> "")
                  \/ (typeof name <> "string" \/ name = VStr "")).
  { destruct name as [| |b|x|s|items|fields];
      try (right; left; discriminate).
    destruct (decide (s = "")) as [->|Hs]; [right; by right | left; eauto]. }
  destruct Hname as [(s & -> & Hs)|Hbad].
  - destruct (encode data true) as [E|e] eqn:HE.
    + split; right; exists s, E; split_and!; try done.
      * rewrite run_valid_name by done.
        by apply DefaultController_run_encoded.
      * intros req. rewrite startJob_valid_name by done.
        by apply DefaultController_startJob_encoded.
    + split; left; exists e.
      * rewrite run_valid_name by done. simpl.
        unfold DefaultController_run, lift, mbind, M_bind. by rewrite HE.
      * rewrite startJob_valid_name by done. simpl.
        unfold DefaultController_startJob, lift, mbind, M_bind. by rewrite HE.
  - split; left; eexists.
    + destruct Hbad as [Hty| ->]; [|reflexivity].
      destruct name; try reflexivity. by destruct Hty.
    + destruct Hbad as [Hty| ->]; [|reflexivity].
      destruct name; try reflexivity. by destruct Hty.
Qed.

End RequestAccounting.

(* ===================================================================== *)
(** * The further properties at concrete inputs                           *)
(* ===================================================================== *)

(** [run('hello', null)] against a transport that rejects every request. *)
Lemma run_passes_transport_failure_through_witness :
  let e := Reason (VStr "XMLHttpRequest failed") in
  let cm := sample_registry (rejecting_transport e) in
  "hello" <> ""
  /\ @encode sample_collaborators VNull true = Normal VNull
  /\ (forall res,
        getRESTController cm (run_request "hello" VNull VUndefined) <> Fulfilled res)
  /\ run (@module_load sample_collaborators cm) (VStr "hello") VNull VUndefined []
     = (Normal (Rejected e), [run_request "hello" VNull VUndefined]).
Proof.
  intros e cm.
  assert (Hname : "hello" <> "") by discriminate.
  assert (Henc : @encode sample_collaborators VNull true = Normal VNull)
    by reflexivity.
  assert (Hfail : forall res,
            getRESTController cm (run_request "hello" VNull VUndefined)
            <> Fulfilled res) by (intros res; discriminate).
  split_and!; try assumption.
  exact (@run_passes_transport_failure_through sample_collaborators cm "hello"
           VNull VUndefined VNull [] Hname Henc Hfail).
Defined.

(** [run('hello', null)] when the transport answers [{foo: 1}]. *)
Lemma run_rejects_invalid_json_iff_witness :
  let res := VObj {[ "foo" := VNum (S754_finite false 4503599627370496 (-52)) ]} in
  let cm := sample_registry (const_transport res) in
  "hello" <> ""
  /\ @encode sample_collaborators VNull true = Normal VNull
  /\ getRESTController cm (run_request "hello" VNull VUndefined) = Fulfilled res
  /\ (lacks_result res /\ ~ shadows_hasOwnProperty res)
  /\ fst (run (@module_load sample_collaborators cm) (VStr "hello") VNull VUndefined [])
     = Normal (Rejected (ParseError 107 "The server returned an invalid response.")).
Proof.
  intros res cm.
  assert (Hname : "hello" <> "") by discriminate.
  assert (Henc : @encode sample_collaborators VNull true = Normal VNull)
    by reflexivity.
  assert (Hreply : getRESTController cm (run_request "hello" VNull VUndefined)
                   = Fulfilled res) by reflexivity.
  assert (Hshape : lacks_result res /\ ~ shadows_hasOwnProperty res).
  { split; [split; [vm_compute; constructor | reflexivity]|].
    simpl. rewrite lookup_singleton_ne by discriminate. by intros [? ?]. }
  split_and!; try assumption; try apply Hshape.
  exact (proj2 (@run_rejects_invalid_json_iff sample_collaborators cm "hello"
                  VNull VUndefined VNull res [] Hname Henc Hreply) Hshape).
Defined.


(** [run('hello', null)] when the transport answers the bare string ['ok']. *)
Lemma run_void_reply_resolves_undefined_witness :
  let res := VStr "ok" in
  let cm := sample_registry (const_transport res) in
  "hello" <> ""
  /\ @encode sample_collaborators VNull true = Normal VNull
  /\ getRESTController cm (run_request "hello" VNull VUndefined) = Fulfilled res
  /\ (typeof res <> "object" \/ res = VObj ∅ \/ res = VArr [])
  /\ @decode sample_collaborators res = res
  /\ fst (run (@module_load sample_collaborators cm) (VStr "hello") VNull VUndefined [])
     = Normal (Fulfilled VUndefined).
Proof.
  intros res cm.
  assert (Hname : "hello" <> "") by discriminate.
  assert (Henc : @encode sample_collaborators VNull true = Normal VNull)
    by reflexivity.
  assert (Hreply : getRESTController cm (run_request "hello" VNull VUndefined)
                   = Fulfilled res) by reflexivity.
  assert (Hvoid : typeof res <> "object" \/ res = VObj ∅ \/ res = VArr [])
    by (left; discriminate).
  assert (Hdec : @decode sample_collaborators res = res) by reflexivity.
  split_and!; try assumption.
  exact (@run_void_reply_resolves_undefined sample_collaborators cm "hello"
           VNull VUndefined VNull res [] Hname Henc Hreply Hvoid Hdec).
Defined.

(** [run('hello', null, {useMasterKey: true, timeout: true})] is
    [run('hello', null, {useMasterKey: true})]. *)
Lemma run_ignores_unrecognised_option_witness :
  let fields : gmap string value := {[ "useMasterKey" := VBool true ]} in
  let cm := sample_registry echo_transport in
  ("timeout" ∉ forwarded_keys)
  /\ run cm (VStr "hello") VNull (VObj (<["timeout" := VBool true]> fields))
     = run cm (VStr "hello") VNull (VObj fields)
  /\ run cm (VStr "hello") VNull (VObj (delete "timeout" fields))
     = run cm (VStr "hello") VNull (VObj fields).
Proof.
  intros fields cm.
  assert (Hk : "timeout" ∉ forwarded_keys).
  { unfold forwarded_keys. intros Hin.
    repeat (apply elem_of_cons in Hin as [Hin|Hin]; [discriminate Hin|]).
    by apply elem_of_nil in Hin. }
  split; [exact Hk|].
  exact (run_ignores_unrecognised_option cm (VStr "hello") VNull (VBool true)
           fields "timeout" Hk).
Defined.

(** [run('hello', null, [true])]: an array as options. *)
Lemma run_non_object_options_witness :
  let opts := VArr [VBool true] in
  let cm := sample_registry echo_transport in
  (forall fields, opts <> VObj fields)
  /\ requestOptions (or_else opts (VObj ∅)) = ∅
  /\ run cm (VStr "hello") VNull opts = run cm (VStr "hello") VNull VUndefined.
Proof.
  intros opts cm.
  assert (Hno : forall fields, opts <> VObj fields) by (intros fields; discriminate).
  split; [exact Hno|].
  exact (run_non_object_options cm (VStr "hello") VNull opts Hno).
Defined.

(** [run('hello', undefined)] and [startJob('hello', undefined)] with an
    encoder that refuses [undefined]. *)
Lemma encode_failure_is_synchronous_witness :
  let e := Reason (VStr "Cannot create a pointer to an unsaved Object.") in
  let cm := sample_registry echo_transport in
  "hello" <> ""
  /\ @encode strict_collaborators VUndefined true = Throw e
  /\ run (@module_load strict_collaborators cm) (VStr "hello") VUndefined VUndefined []
     = (Throw e, [])
  /\ startJob (@module_load strict_collaborators cm) (VStr "hello") VUndefined []
     = (Throw e, []).
Proof.
  intros e cm.
  assert (Hname : "hello" <> "") by discriminate.
  assert (Henc : @encode strict_collaborators VUndefined true = Throw e)
    by reflexivity.
  split; [exact Hname|]. split; [exact Henc|].
  exact (@encode_failure_is_synchronous strict_collaborators cm "hello"
           VUndefined VUndefined e [] Hname Henc).
Defined.
